(** * hub.util: reporting configuration, feature reports and id generation

    A shallow embedding of [hub/util/bugout_reporter.py] and
    [hub/util/generate_id.py].

    - Python values that come out of [json.load] are the inductive [json];
      a Python [dict] with string keys is a [gmap string json].
    - Exceptions are explicit: fallible code returns a [res].  Code that
      also touches the file system, the random source or the process-wide
      reporter runs in the state-and-exception monad [M S], in which the
      state reached when an exception is raised is kept (Python does not
      roll anything back).
    - Floating point numbers in a config file are outside the model:
      JSON numbers are the integers. *)

From stdpp Require Import gmap strings list fin_maps.
From Stdlib Require Import ZArith Ascii Lia.

#[local] Open Scope Z_scope.

(** ** Python values and exceptions *)

#[warnings="-register-all"]
Inductive json :=
| JNull
| JBool (b : bool)
| JInt (z : Z)
| JStr (s : string)
| JArr (l : list json)
| JObj (d : gmap string json).

(** An exception: the name of its class and its argument. *)
Record exn := Exn { exn_class : string; exn_arg : string }.

Inductive res (A : Type) :=
| Ok (a : A)
| Raise (e : exn).
Arguments Ok {A} a.
Arguments Raise {A} e.

Definition TypeError (what : string) : exn := Exn "TypeError" what.
Definition KeyError (key : string) : exn := Exn "KeyError" key.
Definition AttributeError (attr : string) : exn := Exn "AttributeError" attr.
Definition ValueError (msg : string) : exn := Exn "ValueError" msg.
Definition OSError (msg : string) : exn := Exn "OSError" msg.
Definition JSONDecodeError : exn := Exn "JSONDecodeError" "".

(** [x is None] *)
Definition is_none (j : json) : bool :=
  match j with JNull => true | _ => false end.

(** [a == b] on values produced by [json.load]: [bool] is a subclass of
    [int] ([True == 1]), lists compare element-wise, dicts key-wise. *)
Fixpoint py_eq (a b : json) : bool :=
  match a, b with
  | JNull, JNull => true
  | JBool x, JBool y => Bool.eqb x y
  | JBool x, JInt z | JInt z, JBool x => Z.eqb (Z.b2z x) z
  | JInt x, JInt y => Z.eqb x y
  | JStr s, JStr t => String.eqb s t
  | JArr l, JArr m =>
      (fix go (l m : list json) : bool :=
         match l, m with
         | [], [] => true
         | x :: l', y :: m' => py_eq x y && go l' m'
         | _, _ => false
         end) l m
  | JObj d, JObj e =>
      map_fold (λ _ ok acc, ok && acc) true
        (merge (λ x y, match x, y with
                       | Some x, Some y => Some (py_eq x y)
                       | None, None => None
                       | _, _ => Some false
                       end) d e)
  | _, _ => false
  end.

(** [d.get(k)]: only a dict has the method. *)
Definition py_get (j : json) (k : string) : res json :=
  match j with
  | JObj d => Ok (default JNull (d !! k))
  | _ => Raise (AttributeError "get")
  end.

(** [d[k]] with a string key. *)
Definition py_getitem (j : json) (k : string) : res json :=
  match j with
  | JObj d => match d !! k with
              | Some v => Ok v
              | None => Raise (KeyError k)
              end
  | JArr _ | JStr _ => Raise (TypeError "indices must be integers")
  | _ => Raise (TypeError "object is not subscriptable")
  end.

(** [d[k] = v] with a string key. *)
Definition py_setitem (j : json) (k : string) (v : json) : res json :=
  match j with
  | JObj d => Ok (JObj (<[k := v]> d))
  | JArr _ => Raise (TypeError "indices must be integers")
  | _ => Raise (TypeError "object does not support item assignment")
  end.

(** [needle in hay] on strings. *)
Fixpoint contains (needle hay : string) : bool :=
  String.prefix needle hay ||
  match hay with
  | EmptyString => false
  | String _ rest => contains needle rest
  end.

(** ** The state-and-exception monad *)

Definition M (S A : Type) : Type := S → res A * S.

Definition ret {S A} (a : A) : M S A := λ s, (Ok a, s).

Definition bind {S A B} (m : M S A) (k : A → M S B) : M S B :=
  λ s, match m s with
       | (Ok a, s') => k a s'
       | (Raise e, s') => (Raise e, s')
       end.

(** A pure fallible step. *)
Definition lift {S A} (r : res A) : M S A := λ s, (r, s).

(** [try: body except Exception: handler] *)
Definition try_except {S A} (body : M S A) (handler : exn → M S A) : M S A :=
  λ s, match body s with
       | (Ok a, s') => (Ok a, s')
       | (Raise e, s') => handler e s'
       end.

Definition get_state {S} : M S S := λ s, (Ok s, s).

(** Run a computation on the second component of a pair of states. *)
Definition in_snd {L S A} (m : M S A) : M (L * S) A :=
  λ '(l, s), let '(r, s') := m s in (r, (l, s')).

Definition in_fst {L S A} (m : M L A) : M (L * S) A :=
  λ '(l, s), let '(r, l') := m l in (r, (l', s)).

(** Read and assign the first component (a local variable). *)
Definition get_local {L S} : M (L * S) L := λ '(l, s), (Ok l, (l, s)).
Definition set_local {L S} (l : L) : M (L * S) unit := λ '(_, s), (Ok tt, (l, s)).

Declare Scope py_scope.
Delimit Scope py_scope with py.
Notation "x <- m ;; k" := (bind m (λ x, k))
  (at level 100, m at next level, right associativity) : py_scope.
Notation "m ;;; k" := (bind m (λ _, k))
  (at level 100, right associativity) : py_scope.
#[local] Open Scope py_scope.

(** ** The environment: the config file and the random source *)

(** What the bytes of a file are to [json.load]. *)
Inductive content :=
| Garbage            (* text that does not parse as JSON *)
| Json (j : json).   (* text that parses to [j] *)

(** What is found at [REPORTING_CONFIG_FILE_PATH]. *)
Inductive node :=
| Absent
| Directory
| File (readable : bool) (c : content).

Record world := World {
  config_path : node;
  can_mkdir : bool;      (* [os.makedirs] of the parent directory succeeds *)
  can_write : bool;      (* [open(path, "w")] succeeds *)
  entropy : nat → Z      (* the draws [os.urandom(16)] will return *)
}.

Definition set_config_path (n : node) (w : world) : world :=
  World n (can_mkdir w) (can_write w) (entropy w).

Definition os_path_isfile : M world bool :=
  λ w, (Ok (match config_path w with File _ _ => true | _ => false end), w).

Definition os_path_exists : M world bool :=
  λ w, (Ok (match config_path w with Absent => false | _ => true end), w).

(** [os.makedirs(path.parent, exist_ok=True)] *)
Definition makedirs_parent : M world unit :=
  λ w, match config_path w with
       | Absent => if can_mkdir w then (Ok tt, w)
                   else (Raise (OSError "makedirs"), w)
       | _ => (Ok tt, w)
       end.

(** [with open(path, "r") as ifp: json.load(ifp)] *)
Definition json_load_file : M world json :=
  λ w, match config_path w with
       | Absent => (Raise (OSError "No such file or directory"), w)
       | Directory => (Raise (OSError "Is a directory"), w)
       | File false _ => (Raise (OSError "Permission denied"), w)
       | File true Garbage => (Raise JSONDecodeError, w)
       | File true (Json j) => (Ok j, w)
       end.

(** [with open(path, "w") as ofp: json.dump(cfg, ofp)] *)
Definition json_dump_file (cfg : json) : M world unit :=
  λ w, match config_path w with
       | Directory => (Raise (OSError "Is a directory"), w)
       | Absent =>
           if can_write w then (Ok tt, set_config_path (File true (Json cfg)) w)
           else (Raise (OSError "Permission denied"), w)
       | File r _ =>
           if can_write w then (Ok tt, set_config_path (File r (Json cfg)) w)
           else (Raise (OSError "Permission denied"), w)
       end.

(** [UUID(bytes=..., version=4).int]: the variant and version bits are
    forced on the 128 random bits. *)
Definition uuid4_int (raw : Z) : Z :=
  Z.lor (Z.ldiff (Z.lor (Z.ldiff raw (Z.shiftl 0xc000 48)) (Z.shiftl 0x8000 48))
                 (Z.shiftl 0xf000 64))
        (Z.shiftl 4 76).

(** [uuid.uuid4()], as its [int]. *)
Definition uuid4 : M world Z :=
  λ w, (Ok (uuid4_int (entropy w 0 mod 2 ^ 128)),
        World (config_path w) (can_mkdir w) (can_write w) (λ n, entropy w (S n))).

Definition hex_digit (d : Z) : ascii :=
  match String.get (Z.to_nat d) "0123456789abcdef" with
  | Some c => c
  | None => "0"%char
  end.

(** ['%0nx' % z], for [0 <= z < 16^n] *)
Fixpoint hex_be (n : nat) (z : Z) : string :=
  match n with
  | O => ""
  | S n' => hex_be n' (z / 16) +:+ String (hex_digit (z mod 16)) ""
  end.

(** [str(u)] for a UUID [u] with [u.int = z] *)
Definition uuid_str (z : Z) : string :=
  let h := hex_be 32 z in
  String.substring 0 8 h +:+ "-" +:+ String.substring 8 4 h +:+ "-"
  +:+ String.substring 12 4 h +:+ "-" +:+ String.substring 16 4 h +:+ "-"
  +:+ String.substring 20 12 h.

(** ** [save_reporting_config] *)

Definition save_reporting_config (consent : bool) (client_id username : option string)
  : M world json :=
  let reporting_config := JObj ∅ in
  is_file <- os_path_isfile ;;
  reporting_config <-
    (if is_file then try_except json_load_file (λ _, ret reporting_config)
     else (makedirs_parent ;;; ret reporting_config)) ;;
  reporting_config <-
    match client_id with
    | Some c =>
        cur <- lift (py_get reporting_config "client_id") ;;
        if is_none cur then lift (py_setitem reporting_config "client_id" (JStr c))
        else ret reporting_config
    | None => ret reporting_config
    end ;;
  cur <- lift (py_get reporting_config "client_id") ;;
  reporting_config <-
    (if is_none cur then
       u <- uuid4 ;;
       lift (py_setitem reporting_config "client_id" (JStr (uuid_str u)))
     else ret reporting_config) ;;
  reporting_config <-
    match username with
    | Some name => lift (py_setitem reporting_config "username" (JStr name))
    | None => ret reporting_config
    end ;;
  reporting_config <- lift (py_setitem reporting_config "consent" (JBool consent)) ;;
  try_except (json_dump_file reporting_config) (λ _, ret tt) ;;;
  ret reporting_config.

(** ** [get_reporting_config] *)

(** The body of the [try] block; the local variable [reporting_config] is
    the first component of the state, so that the value it has when an
    exception is raised is the one the function returns. *)
Definition get_reporting_config_body : M (json * world) unit :=
  file_exists <- in_snd os_path_exists ;;
  (if negb file_exists then
     u <- in_snd uuid4 ;;
     let client_id := uuid_str u in
     reporting_config <- get_local ;;
     reporting_config <- lift (py_setitem reporting_config "client_id" (JStr client_id)) ;;
     set_local reporting_config ;;;
     saved <- in_snd (save_reporting_config true (Some client_id) None) ;;
     set_local saved
   else
     loaded <- in_snd json_load_file ;;
     set_local loaded) ;;;
  reporting_config <- get_local ;;
  original <- lift (py_getitem reporting_config "client_id") ;;
  reporting_config <- lift (py_setitem reporting_config "machine_id" original) ;;
  set_local reporting_config ;;;
  name <- lift (py_get reporting_config "username") ;;
  if negb (is_none name) then
    cid <- lift (py_getitem reporting_config "client_id") ;;
    name <- lift (py_getitem reporting_config "username") ;;
    if negb (py_eq cid name) then
      name <- lift (py_getitem reporting_config "username") ;;
      reporting_config <- lift (py_setitem reporting_config "client_id" name) ;;
      set_local reporting_config
    else ret tt
  else ret tt.

Definition default_config : json := JObj {[ "consent" := JBool false ]}.

Definition get_reporting_config : M world json :=
  λ w, let '(_, (reporting_config, w')) := get_reporting_config_body (default_config, w) in
       (Ok reporting_config, w').

(** [consent_from_reporting_config_file] *)
Definition consent_from_reporting_config_file : M world json :=
  reporting_config <- get_reporting_config ;;
  match reporting_config with
  | JObj d => ret (default (JBool false) (d !! "consent"))
  | _ => lift (Raise (AttributeError "get"))
  end.

(** ** The process-wide reporter *)

(** [hub_reporter]: its tag list, and the feature reports handed to the
    reporting sink ([HumbugReporter.feature_report]), oldest first. *)
Record reporter := Reporter {
  tags : list string;
  reported : list (string * gmap string json)
}.

Definition tags_append (tag : string) : M reporter unit :=
  λ r, (Ok tt, Reporter (tags r ++ [tag]) (reported r)).

(** [hub_reporter.tags[index] = tag] *)
Definition tags_setitem (index : option nat) (tag : string) : M reporter unit :=
  λ r, match index with
       | None => (Raise (TypeError "list indices must be integers"), r)
       | Some i =>
           if decide (i < length (tags r))%nat
           then (Ok tt, Reporter (<[i := tag]> (tags r)) (reported r))
           else (Raise (Exn "IndexError" "list assignment index out of range"), r)
       end.

Definition feature_report (feature_name : string) (parameters : gmap string json)
  : M reporter unit :=
  λ r, (Ok tt, Reporter (tags r) (reported r ++ [(feature_name, parameters)])).

(** The loop of [find_current_username], from position [index] on. *)
Fixpoint find_from (index : nat) (ts : list string) : option nat * option string :=
  match ts with
  | [] => (None, None)
  | tag :: rest =>
      if contains "username" tag then (Some index, Some tag)
      else find_from (S index) rest
  end.

Definition find_current_username (r : reporter) : option nat * option string :=
  find_from 0 (tags r).

(** The tags set up when the module is imported, from the config that
    [get_reporting_config] returned.  [py_str] is Python's formatting of a
    value inside an f-string. *)
Definition init_tags (py_str : json → string) (cfg : json) : M reporter unit :=
  hub_user <- lift (py_get cfg "username") ;;
  (if negb (is_none hub_user) then tags_append ("username:" +:+ py_str hub_user)
   else ret tt) ;;;
  machine_id <- lift (py_get cfg "machine_id") ;;
  if negb (is_none machine_id) then tags_append ("machine_id:" +:+ py_str machine_id)
  else ret tt.

Definition module_init (py_str : json → string) : M (reporter * world) unit :=
  bugout_reporting_config <- in_snd get_reporting_config ;;
  set_local (Reporter [] []) ;;;
  in_fst (init_tags py_str bugout_reporting_config).

(** ** [feature_report_path] *)

(** The [path] argument: a [str], or another object with its [str()]. *)
Inductive path_arg :=
| PathStr (s : string)
| PathObj (str : string).

Definition path_str (p : path_arg) : string :=
  match p with PathStr s => s | PathObj s => s end.

(** The test [f"username:{username}" != current_username]. *)
Definition username_tag_differs (username current_username : string) : bool :=
  negb (String.eqb ("username:" +:+ username) current_username).

(** The local state is the caller's [parameters] dict, which the function
    mutates; [backend] is [HubBackendClient(token).get_user_profile()["name"]]. *)
Definition feature_report_path (backend : string → res string)
    (path : path_arg) (feature_name : string) (starts_with : string)
    (token : option string) : M (gmap string json * reporter) unit :=
  let path := path_str path in
  (if String.prefix starts_with path then
     parameters <- get_local ;;
     set_local (<["Path" := JStr path]> parameters)
   else ret tt) ;;;
  match token with
  | Some tok =>
      username <- lift (backend tok) ;;
      r <- in_snd get_state ;;
      match find_current_username r with
      | (_, None) => in_snd (tags_append ("username:" +:+ username))
      | (index, Some current_username) =>
          if username_tag_differs username current_username
          then in_snd (tags_setitem index ("username:" +:+ username))
          else ret tt
      end
  | None => ret tt
  end ;;;
  parameters <- get_local ;;
  in_snd (feature_report feature_name parameters).

(** ** [generate_id] *)

(** A NumPy scalar type: the size in bytes of its values and its
    constructor from a Python integer. *)
Record dtype := Dtype {
  itemsize : Z;
  cast : Z → res Z
}.

(** [a >> n] on Python integers *)
Definition py_rshift (a n : Z) : res Z :=
  if n <? 0 then Raise (ValueError "negative shift count")
  else Ok (Z.shiftr a n).

Definition generate_id (dt : dtype) : M world Z :=
  let shift := 128 - 8 * itemsize dt in
  u <- uuid4 ;;
  shifted <- lift (py_rshift u shift) ;;
  lift (cast dt shifted).

(** An unsigned integer type of [w] bytes; a value out of range wraps. *)
Definition np_uint (w : Z) : dtype :=
  Dtype w (λ x, Ok (x mod 2 ^ (8 * w))).

(** * Vocabulary of the properties *)

(** [needle] occurs in [hay]. *)
Definition substring_of (needle hay : string) : Prop :=
  ∃ before after, hay = before +:+ needle +:+ after.

Definition no_username (tag : string) : Prop := ¬ substring_of "username" tag.

(** The character [c] occurs in [s]. *)
Fixpoint mentions (c : ascii) (s : string) : bool :=
  match s with
  | EmptyString => false
  | String c' s' => Ascii.eqb c c' || mentions c s'
  end.

(** The outcome of a computation is an exception of class [cls]. *)
Definition raises {S A} (cls : string) (out : res A * S) : Prop :=
  ∃ e, out.1 = Raise e ∧ exn_class e = cls.

(** The UUID that [uuid.uuid4()] returns next, as its string. *)
Definition next_uuid_str (w : world) : string :=
  uuid_str (uuid4_int (entropy w 0 mod 2 ^ 128)).

(** [parameters] once [feature_report_path] has looked at [path]. *)
Definition with_path (starts_with path : string) (parameters : gmap string json)
  : gmap string json :=
  if String.prefix starts_with path then <["Path" := JStr path]> parameters
  else parameters.

(** The number of tags that contain "username". *)
Definition username_tag_count (ts : list string) : nat :=
  length (filter (λ t, contains "username" t = true) ts).

Definition at_most_one_username (ts : list string) : Prop :=
  (username_tag_count ts ≤ 1)%nat.

(** The comparison as the spec describes it: the existing tag against the
    bare resolved name. *)
Definition spec_bare_username_differs (username current_username : string) : bool :=
  negb (String.eqb username current_username).

(** The reporters a process can be in: the one set up when the module is
    imported in the world [w], then any number of [feature_report_path]
    calls (a call that raises leaves the reporter it had reached). *)
Inductive reachable (py_str : json → string) (w : world) : reporter → Prop :=
| reach_init w' r :
    module_init py_str (Reporter [] [], w) = (Ok tt, (r, w')) →
    reachable py_str w r
| reach_report backend path feature_name starts_with token parameters r :
    reachable py_str w r →
    reachable py_str w
      (feature_report_path backend path feature_name starts_with token
         (parameters, r)).2.2.

(** The [machine_id] tag that module initialisation appends in [w] does
    not itself contain "username". *)
Definition machine_id_tag_clean (py_str : json → string) (w : world) : Prop :=
  ∀ d m, (get_reporting_config w).1 = Ok (JObj d) →
         d !! "machine_id" = Some m → m ≠ JNull →
         no_username ("machine_id:" +:+ py_str m).

(** ** Sample inputs *)

(** No config file yet. *)
Definition quiet_world : world := World Absent true true (λ _, 0).

(** A config file that holds only a [client_id]. *)
Definition first_id_world : world :=
  World (File true (Json (JObj {[ "client_id" := JStr "first" ]}))) true true (λ _, 0).

(** A config file with a key this code does not know. *)
Definition extra_key_world : world :=
  World (File true (Json (JObj {[ "client_id" := JStr "first";
                                  "username" := JStr "ann";
                                  "theme" := JInt 7 ]}))) true true (λ _, 0).

(** A config file of a logged-in user. *)
Definition named_world : world :=
  World (File true (Json (JObj {[ "client_id" := JStr "first";
                                  "username" := JStr "ann";
                                  "consent" := JBool true ]}))) true true (λ _, 0).

(** A config file that is a dict with [consent] true and no [client_id]. *)
Definition keyless_world : world :=
  World (File true (Json (JObj {[ "consent" := JBool true ]}))) true true (λ _, 0).

(** A config file whose [client_id] contains the word "username". *)
Definition crafted_world : world :=
  World (File true (Json (JObj {[ "client_id" := JStr "username-host";
                                  "username" := JStr "bob" ]}))) true true (λ _, 0).

(** A type of 32 bytes, such as [numpy.clongdouble]. *)
Definition wide_dtype : dtype := Dtype 32 Ok.

(** [str()] of a JSON string; no other value is formatted below. *)
Definition str_of_string (j : json) : string :=
  match j with JStr s => s | _ => "" end.

(** A backend that knows every token as the user [name]. *)
Definition backend_of (name : string) : string → res string := λ _, Ok name.

(** ** Vocabulary of the further properties *)

(** The config [save_reporting_config] makes of the dict [d] it loaded;
    [fresh] is the UUID it would generate. *)
Definition updated_config (consent : bool) (client_id username : option string)
    (fresh : string) (d : gmap string json) : gmap string json :=
  let d1 := if is_none (default JNull (d !! "client_id"))
            then <["client_id" := JStr (default fresh client_id)]> d else d in
  let d2 := match username with
            | Some name => <["username" := JStr name]> d1
            | None => d1
            end in
  <["consent" := JBool consent]> d2.

(** There is no dict to load at the config path, and the call can go on. *)
Definition nothing_to_load (w : world) : bool :=
  match config_path w with
  | Absent => can_mkdir w
  | Directory => true
  | File true (Json _) => false
  | File _ _ => true
  end.

Definition save_fails (w : world) : bool :=
  match config_path w with
  | Absent => negb (can_mkdir w)
  | File true (Json (JObj _)) => false
  | File true (Json _) => true
  | _ => false
  end.

(** What [get_reporting_config] makes of a loaded dict [d] whose
    [client_id] is [c]. *)
Definition with_machine_id (d : gmap string json) (c : json) : gmap string json :=
  let d1 := <["machine_id" := c]> d in
  match d !! "username" with
  | Some name =>
      if negb (is_none name) && negb (py_eq c name)
      then <["client_id" := name]> d1 else d1
  | None => d1
  end.

(** The config of a first access: a fresh client id, consent given. *)
Definition first_config (w : world) : gmap string json :=
  <["consent" := JBool true]> (<["client_id" := JStr (next_uuid_str w)]> ∅).

Definition is_object (j : json) : bool :=
  match j with JObj _ => true | _ => false end.

Definition array_world : world :=
  World (File true (Json (JArr []))) true true (λ _, 0).


(** * Properties *)

(** ** Strings *)

Lemma prefix_spec (n h : string) :
  String.prefix n h = true ↔ ∃ rest, h = n +:+ rest.
Proof.
  revert h. induction n as [|c n IH]; intros h; simpl.
  - split; [intros _; by exists h | by destruct h].
  - destruct h as [|c' h]; simpl.
    + split; [done | intros [rest ?]; done].
    + destruct (Ascii.ascii_dec c c') as [->|Hne].
      * rewrite IH. split; intros [rest Hr]; exists rest; [by rewrite Hr | by injection Hr].
      * split; [done | intros [rest Hr]; injection Hr; congruence].
Qed.

Lemma contains_nil (n : string) : contains n "" = String.prefix n "".
Proof. apply orb_false_r. Qed.

Lemma contains_cons (n : string) (c : ascii) (h : string) :
  contains n (String c h) = String.prefix n (String c h) || contains n h.
Proof. reflexivity. Qed.

Lemma contains_spec (n h : string) :
  contains n h = true ↔ substring_of n h.
Proof.
  split.
  - induction h as [|c h IH].
    + rewrite contains_nil. intros Hp.
      apply prefix_spec in Hp as [rest Hr]. by exists "", rest.
    + rewrite contains_cons, orb_true_iff. intros [Hp|Hc].
      * apply prefix_spec in Hp as [rest Hr]. exists "", rest. by rewrite Hr.
      * destruct (IH Hc) as (a & b & ->). by exists (String c a), b.
  - intros (a & b & ->). induction a as [|c a IH].
    + assert (String.prefix n (n +:+ b) = true) as Hp by (apply prefix_spec; eauto).
      change ("" +:+ n +:+ b) with (n +:+ b).
      destruct (n +:+ b); [by rewrite contains_nil | by rewrite contains_cons, Hp].
    + change (String c a +:+ n +:+ b) with (String c (a +:+ n +:+ b)).
      rewrite contains_cons, IH. apply orb_true_r.
Qed.

Lemma contains_username_tag (name : string) :
  contains "username" ("username:" +:+ name) = true.
Proof. apply contains_spec. by exists "", (":" +:+ name). Qed.

(** ** The scan for the username tag *)

Lemma contains_false (tag : string) :
  contains "username" tag = false ↔ no_username tag.
Proof.
  unfold no_username. rewrite <- contains_spec.
  destruct (contains "username" tag); split; done.
Qed.

Lemma find_from_none (k : nat) (ts : list string) :
  find_from k ts = (None, None) ↔ Forall no_username ts.
Proof.
  revert k. induction ts as [|tag ts IH]; intros k; simpl.
  - split; [constructor | done].
  - destruct (contains "username" tag) eqn:Hc.
    + split; [done |]. intros H. apply Forall_cons in H as [H _].
      apply contains_false in H. congruence.
    + rewrite IH, Forall_cons. apply contains_false in Hc. tauto.
Qed.

Lemma find_from_some (k : nat) (ts : list string) (i : nat) (tag : string) :
  find_from k ts = (Some i, Some tag) ↔
  ∃ j, i = (k + j)%nat ∧ ts !! j = Some tag ∧ ¬ no_username tag ∧
       Forall no_username (take j ts).
Proof.
  revert k. induction ts as [|t ts IH]; intros k; simpl.
  - split; [done | intros (j & _ & H & _); done].
  - destruct (contains "username" t) eqn:Hc.
    + split.
      * intros [= <- <-]. exists 0%nat. rewrite Nat.add_0_r.
        repeat split; [|constructor]. rewrite <- contains_false. congruence.
      * intros (j & -> & Hl & Hu & Hall). destruct j as [|j]; simpl in *.
        -- injection Hl as ->. by rewrite Nat.add_0_r.
        -- apply Forall_cons in Hall as [Hall _].
           apply contains_false in Hall. congruence.
    + apply contains_false in Hc. rewrite IH. split.
      * intros (j & -> & Hl & Hu & Hall). exists (S j).
        repeat split; [lia | done | done | by constructor].
      * intros (j & -> & Hl & Hu & Hall). destruct j as [|j]; simpl in *.
        -- injection Hl as ->. done.
        -- exists j. apply Forall_cons in Hall as [_ Hall].
           repeat split; [lia | done | done | done].
Qed.

Lemma find_from_shape (k : nat) (ts : list string) :
  find_from k ts = (None, None) ∨
  ∃ i tag, find_from k ts = (Some i, Some tag).
Proof.
  revert k. induction ts as [|t ts IH]; intros k; simpl; [by left|].
  destruct (contains "username" t); [right; eauto | apply IH].
Qed.

Lemma not_no_username (tag : string) :
  ¬ no_username tag ↔ substring_of "username" tag.
Proof.
  rewrite <- contains_false, <- contains_spec.
  destruct (contains "username" tag); split; done.
Qed.

Lemma find_from_append (k : nat) (ts : list string) (tag : string) :
  Forall no_username ts → substring_of "username" tag →
  find_from k (ts ++ [tag]) = (Some (k + length ts)%nat, Some tag).
Proof.
  intros Hall Htag. apply find_from_some. exists (length ts).
  split; [done|]. split; [|split].
  - by rewrite lookup_app_r, Nat.sub_diag.
  - by apply not_no_username.
  - by rewrite take_app_length.
Qed.

(** C8: [find_current_username] returns [(None, None)] exactly when no tag
    contains the substring "username"; otherwise it returns the index and
    the full string of the first tag that contains it.  On an empty tag
    list it returns [(None, None)], and after a "username:" tag has been
    appended to tags without one it returns the index of that tag. *)
Theorem find_current_username_first (r : reporter) :
  (find_current_username r = (None, None) ↔ Forall no_username (tags r))
  ∧ (find_current_username r = (None, None) ∨
     ∃ i tag, find_current_username r = (Some i, Some tag)
              ∧ tags r !! i = Some tag
              ∧ substring_of "username" tag
              ∧ ∀ j t, (j < i)%nat → tags r !! j = Some t → no_username t)
  ∧ (tags r = [] → find_current_username r = (None, None))
  ∧ (∀ name, Forall no_username (tags r) →
       find_current_username (tags_append ("username:" +:+ name) r).2
       = (Some (length (tags r)), Some ("username:" +:+ name))).
Proof.
  unfold find_current_username. split; [apply find_from_none|].
  split; [|split].
  - destruct (find_from_shape 0 (tags r)) as [Hn|(i & tag & Hs)]; [by left|].
    right. exists i, tag. split; [done|].
    apply find_from_some in Hs as (j & -> & Hl & Hu & Hall). simpl.
    split; [done|]. split; [by apply not_no_username|].
    intros j' t Hlt Hj'. rewrite Forall_lookup in Hall. apply (Hall j' t).
    by rewrite lookup_take_lt.
  - intros ->. reflexivity.
  - intros name Hall. simpl.
    apply (find_from_append 0); [done|]. apply contains_spec, contains_username_tag.
Qed.

(** ** Identifiers *)

Lemma bits_above (x n i : Z) :
  0 ≤ x < 2 ^ n → n ≤ i → Z.testbit x i = false.
Proof.
  intros [Hx Hlt] Hi.
  destruct (decide (n < 0)) as [Hn|Hn]; [rewrite Z.pow_neg_r in Hlt; lia|].
  rewrite <- (Z.mod_small x (2 ^ n)) by lia.
  apply Z.mod_pow2_bits_high. lia.
Qed.

Lemma below_pow2 (x n : Z) :
  0 ≤ n → 0 ≤ x → (∀ i, n ≤ i → Z.testbit x i = false) → x < 2 ^ n.
Proof.
  intros Hn Hx Hbits.
  assert (x = x mod 2 ^ n) as ->.
  { apply Z.bits_inj'. intros i Hi.
    destruct (decide (i < n)) as [Hlt|Hge].
    - by rewrite Z.mod_pow2_bits_low.
    - rewrite Z.mod_pow2_bits_high by lia. apply Hbits. lia. }
  apply Z.mod_pos_bound. apply Z.pow_pos_nonneg; lia.
Qed.

Lemma uuid4_int_range (raw : Z) :
  0 ≤ raw < 2 ^ 128 → 0 ≤ uuid4_int raw < 2 ^ 128.
Proof.
  intros Hraw. unfold uuid4_int.
  assert (0 ≤ Z.lor (Z.ldiff (Z.lor (Z.ldiff raw (Z.shiftl 49152 48))
            (Z.shiftl 32768 48)) (Z.shiftl 61440 64)) (Z.shiftl 4 76)) as Hnn.
  { rewrite Z.lor_nonneg. split; [|done].
    rewrite Z.ldiff_nonneg. left.
    rewrite Z.lor_nonneg. split; [|done].
    rewrite Z.ldiff_nonneg. left. lia. }
  split; [done|].
  apply below_pow2; [lia | done |].
  intros i Hi.
  rewrite Z.lor_spec, Z.ldiff_spec, Z.lor_spec, Z.ldiff_spec.
  rewrite (bits_above raw 128 i), (bits_above (Z.shiftl 32768 48) 128 i),
    (bits_above (Z.shiftl 4 76) 128 i); done.
Qed.

Lemma uuid4_range (wd : world) :
  ∃ u wd', uuid4 wd = (Ok u, wd') ∧ 0 ≤ u < 2 ^ 128.
Proof.
  eexists _, _. split; [reflexivity|].
  apply uuid4_int_range, Z.mod_pos_bound. done.
Qed.

Lemma generate_id_narrow (dt : dtype) (wd : world) :
  0 ≤ itemsize dt ≤ 16 →
  (∀ x, 0 ≤ x < 2 ^ (8 * itemsize dt) → cast dt x = Ok x) →
  ∃ u wd', uuid4 wd = (Ok u, wd') ∧ 0 ≤ u < 2 ^ 128
    ∧ generate_id dt wd = (Ok (Z.shiftr u (128 - 8 * itemsize dt)), wd')
    ∧ 0 ≤ Z.shiftr u (128 - 8 * itemsize dt) ≤ 2 ^ (8 * itemsize dt) - 1
    ∧ ∀ i, 0 ≤ i →
        Z.testbit (Z.shiftr u (128 - 8 * itemsize dt)) i
        = Z.testbit u (i + (128 - 8 * itemsize dt)).
Proof.
  intros Hw Hcast.
  destruct (uuid4_range wd) as (u & wd' & Hu & Hrange).
  exists u, wd'. split; [done|]. split; [done|].
  set (w := itemsize dt) in *.
  assert (0 ≤ Z.shiftr u (128 - 8 * w) < 2 ^ (8 * w)) as Hres.
  { rewrite Z.shiftr_div_pow2 by lia. split.
    - apply Z.div_pos; [lia|]. apply Z.pow_pos_nonneg; lia.
    - apply Z.div_lt_upper_bound; [apply Z.pow_pos_nonneg; lia|].
      rewrite <- Z.pow_add_r by lia.
      replace (128 - 8 * w + 8 * w) with 128 by lia. lia. }
  split; [|split; [lia|]].
  - unfold generate_id, bind, lift. rewrite Hu. fold w.
    unfold py_rshift. destruct (Z.ltb_spec (128 - 8 * w) 0) as [?|_]; [lia|].
    by rewrite Hcast.
  - intros i Hi. by apply Z.shiftr_spec.
Qed.

(** C6: for a byte width [w] in {1, 2, 4, 8, 16}, an unsigned type [dt] of
    that width and any state of the random source, [generate_id] returns
    the 128-bit value [u] of the UUID it draws shifted right by [128 - 8*w]:
    a value between [0] and [2^(8*w) - 1] whose bits are the [8*w] most
    significant bits of [u]. *)
Theorem generate_id_msb (dt : dtype) (w : Z) (wd : world) :
  w = 1 ∨ w = 2 ∨ w = 4 ∨ w = 8 ∨ w = 16 →
  itemsize dt = w →
  (∀ x, 0 ≤ x < 2 ^ (8 * w) → cast dt x = Ok x) →
  ∃ u wd', uuid4 wd = (Ok u, wd') ∧ 0 ≤ u < 2 ^ 128
    ∧ generate_id dt wd = (Ok (Z.shiftr u (128 - 8 * w)), wd')
    ∧ 0 ≤ Z.shiftr u (128 - 8 * w) ≤ 2 ^ (8 * w) - 1
    ∧ ∀ i, 0 ≤ i < 8 * w →
        Z.testbit (Z.shiftr u (128 - 8 * w)) i = Z.testbit u (128 - 8 * w + i).
Proof.
  intros Hw <- Hcast.
  destruct (generate_id_narrow dt wd) as (u & wd' & Hu & Hr & Hg & Hb & Hbits);
    [lia | done |].
  exists u, wd'. repeat split; try done; try lia.
  intros i Hi. rewrite Hbits by lia. f_equal. lia.
Qed.

Lemma generate_id_msb_witness :
  ∃ u wd', uuid4 quiet_world = (Ok u, wd') ∧ 0 ≤ u < 2 ^ 128
    ∧ generate_id (np_uint 8) quiet_world = (Ok (Z.shiftr u (128 - 8 * 8)), wd')
    ∧ 0 ≤ Z.shiftr u (128 - 8 * 8) ≤ 2 ^ (8 * 8) - 1
    ∧ ∀ i, 0 ≤ i < 8 * 8 →
        Z.testbit (Z.shiftr u (128 - 8 * 8)) i = Z.testbit u (128 - 8 * 8 + i).
Proof.
  apply (generate_id_msb (np_uint 8) 8 quiet_world).
  - tauto.
  - reflexivity.
  - intros x Hx. simpl. f_equal. apply Z.mod_small. exact Hx.
Defined.

(** C3, as stated, fails: for a type of 32 bytes the error raised is not of
    a class [InvalidWidth]. *)
Lemma generate_id_wide_not_InvalidWidth :
  16 < itemsize wide_dtype ∧
  ¬ raises "InvalidWidth" (generate_id wide_dtype quiet_world).
Proof.
  split; [done|]. intros (e & He & Hcls).
  vm_compute in He. injection He as <-. vm_compute in Hcls. discriminate.
Qed.

(** C3, amended: for every type whose item size exceeds 16 bytes,
    [generate_id] returns no value: once the UUID is drawn, the shift by the
    negative count [128 - 8 * itemsize] raises Python's [ValueError]
    ("negative shift count"), before any conversion to the type. *)
Theorem generate_id_wide_raises (dt : dtype) (wd : world) :
  16 < itemsize dt →
  generate_id dt wd = (Raise (ValueError "negative shift count"), (uuid4 wd).2)
  ∧ raises "ValueError" (generate_id dt wd).
Proof.
  intros Hw.
  assert (generate_id dt wd
          = (Raise (ValueError "negative shift count"), (uuid4 wd).2)) as Hg.
  { unfold generate_id, bind, lift, py_rshift. simpl.
    destruct (Z.ltb_spec (128 - 8 * itemsize dt) 0) as [_|?]; [done | lia]. }
  split; [done|]. rewrite Hg. by eexists.
Qed.

Lemma generate_id_wide_raises_witness :
  generate_id wide_dtype quiet_world
  = (Raise (ValueError "negative shift count"), (uuid4 quiet_world).2)
  ∧ raises "ValueError" (generate_id wide_dtype quiet_world).
Proof. apply (generate_id_wide_raises wide_dtype quiet_world). simpl. lia. Defined.

(** ** The reporting config *)

Ltac run_config :=
  unfold get_reporting_config, get_reporting_config_body, save_reporting_config,
    bind, ret, lift, try_except, in_snd, in_fst, get_local, set_local,
    os_path_isfile, os_path_exists, makedirs_parent, json_load_file,
    json_dump_file, uuid4, set_config_path, next_uuid_str; simpl.

(** Case analysis on the stored [client_id] and the arguments of
    [save_reporting_config], for a file that holds the dict [d]. *)
Ltac save_cases d client_id username wr Hd :=
  destruct (d !! "client_id") as [[]|] eqn:Hd;
  destruct client_id, username, wr; simpl;
  rewrite ?Hd, ?lookup_insert_eq; simpl; rewrite ?Hd, ?lookup_insert_eq; simpl.

(** C5: when the config file holds a dict with a non-null [client_id],
    [save_reporting_config], whatever [client_id] it is given, returns a
    config with that same [client_id] and leaves it in the file (which holds
    the returned config when the write succeeds and is untouched otherwise).
    A [client_id] is assigned only when the stored one is missing or null:
    the argument if one is given, else a fresh UUID. *)
Theorem save_client_id_once (consent : bool) (client_id username : option string)
    (w : world) (d : gmap string json) :
  config_path w = File true (Json (JObj d)) →
  ∃ cfg stored w',
    save_reporting_config consent client_id username w = (Ok (JObj cfg), w')
    ∧ config_path w' = File true (Json (JObj stored))
    ∧ stored = (if can_write w then cfg else d)
    ∧ match d !! "client_id" with
      | Some v =>
          if is_none v
          then cfg !! "client_id" = Some (JStr (default (next_uuid_str w) client_id))
          else cfg !! "client_id" = Some v ∧ stored !! "client_id" = Some v
      | None => cfg !! "client_id" = Some (JStr (default (next_uuid_str w) client_id))
      end.
Proof.
  intros Hfile. destruct w as [n mk wr ent]. simpl in Hfile. subst n.
  run_config. save_cases d client_id username wr Hd.
  all: eexists _, _, _; split_and!; try reflexivity; by simplify_map_eq.
Qed.

Lemma save_client_id_once_witness :
  ∃ cfg stored w',
    save_reporting_config false (Some "other") None first_id_world = (Ok (JObj cfg), w')
    ∧ config_path w' = File true (Json (JObj stored))
    ∧ stored = cfg
    ∧ cfg !! "client_id" = Some (JStr "first")
      ∧ stored !! "client_id" = Some (JStr "first").
Proof.
  exact (save_client_id_once false (Some "other") None first_id_world
           {[ "client_id" := JStr "first" ]} eq_refl).
Defined.

(** C10: when the config file holds a dict, [save_reporting_config] returns
    and leaves in the file a config in which every key other than
    [client_id], [username] and [consent] is bound as it was (and no other
    key appears); when no [username] is given the stored [username] is kept
    as well. *)
Theorem save_preserves_other_keys (consent : bool) (client_id username : option string)
    (w : world) (d : gmap string json) :
  config_path w = File true (Json (JObj d)) →
  ∃ cfg stored w',
    save_reporting_config consent client_id username w = (Ok (JObj cfg), w')
    ∧ config_path w' = File true (Json (JObj stored))
    ∧ (∀ k, k ≠ "client_id" → k ≠ "username" → k ≠ "consent" →
         cfg !! k = d !! k ∧ stored !! k = d !! k)
    ∧ (username = None →
         cfg !! "username" = d !! "username" ∧ stored !! "username" = d !! "username").
Proof.
  intros Hfile. destruct w as [n mk wr ent]. simpl in Hfile. subst n.
  run_config. save_cases d client_id username wr Hd.
  all: eexists _, _, _; split_and!; try reflexivity; intros; by simplify_map_eq.
Qed.

Lemma save_preserves_other_keys_witness :
  ∃ cfg stored w',
    save_reporting_config true None None extra_key_world = (Ok (JObj cfg), w')
    ∧ config_path w' = File true (Json (JObj stored))
    ∧ (∀ k, k ≠ "client_id" → k ≠ "username" → k ≠ "consent" →
         cfg !! k = ({[ "client_id" := JStr "first"; "username" := JStr "ann";
                        "theme" := JInt 7 ]} : gmap string json) !! k
         ∧ stored !! k = ({[ "client_id" := JStr "first"; "username" := JStr "ann";
                             "theme" := JInt 7 ]} : gmap string json) !! k)
    ∧ ((None : option string) = None →
         cfg !! "username" = Some (JStr "ann") ∧ stored !! "username" = Some (JStr "ann")).
Proof.
  exact (save_preserves_other_keys true None None extra_key_world _ eq_refl).
Defined.

(** C4: when the config file holds a dict whose [username] is not null and
    differs from its [client_id], [get_reporting_config] returns that dict
    with [machine_id] bound to the stored [client_id] and [client_id] bound
    to the [username], every other key as stored; the file system is left
    as it was. *)
Theorem get_substitutes_username (w : world) (d : gmap string json) (cid name : json) :
  config_path w = File true (Json (JObj d)) →
  d !! "client_id" = Some cid →
  d !! "username" = Some name →
  name ≠ JNull →
  py_eq cid name = false →
  ∃ cfg, get_reporting_config w = (Ok (JObj cfg), w)
    ∧ cfg !! "client_id" = Some name
    ∧ cfg !! "machine_id" = Some cid
    ∧ ∀ k, k ≠ "client_id" → k ≠ "machine_id" → cfg !! k = d !! k.
Proof.
  intros Hfile Hcid Hname Hnn Hne. destruct w as [n mk wr ent]. simpl in Hfile. subst n.
  run_config. rewrite Hcid. simpl.
  rewrite !lookup_insert_ne, Hname, Hcid by done. simpl.
  destruct name; try done; simpl; rewrite Hne; simpl.
  all: eexists; split_and!; try reflexivity; intros; by simplify_map_eq.
Qed.

Lemma get_substitutes_username_witness :
  ∃ cfg, get_reporting_config named_world = (Ok (JObj cfg), named_world)
    ∧ cfg !! "client_id" = Some (JStr "ann")
    ∧ cfg !! "machine_id" = Some (JStr "first")
    ∧ ∀ k, k ≠ "client_id" → k ≠ "machine_id" →
        cfg !! k = ({[ "client_id" := JStr "first"; "username" := JStr "ann";
                       "consent" := JBool true ]} : gmap string json) !! k.
Proof.
  apply (get_substitutes_username named_world _ (JStr "first") (JStr "ann")).
  - reflexivity.
  - reflexivity.
  - reflexivity.
  - discriminate.
  - reflexivity.
Defined.

(** [get_reporting_config] never raises. *)
Lemma get_reporting_config_returns (w : world) :
  ∃ cfg w', get_reporting_config w = (Ok cfg, w').
Proof.
  unfold get_reporting_config.
  destruct (get_reporting_config_body (default_config, w)) as [r [cfg w']]. eauto.
Qed.

(** A file that cannot be opened or parsed gives the default config. *)
Lemma get_reporting_config_unloadable (w : world) :
  (∃ r, config_path w = File r Garbage) ∨ (∃ c, config_path w = File false c)
  ∨ config_path w = Directory →
  get_reporting_config w = (Ok default_config, w).
Proof.
  destruct w as [n mk wr ent]. simpl.
  intros [[r ->]|[[c ->]| ->]]; try reflexivity. by destruct r.
Qed.

(** When there is no file and its directory cannot be created, the default
    config comes back with the [client_id] that was put into it. *)
Lemma get_reporting_config_makedirs_failure (w : world) :
  config_path w = Absent → can_mkdir w = false →
  ∃ w', get_reporting_config w
        = (Ok (JObj (<["client_id" := JStr (next_uuid_str w)]>
                       {[ "consent" := JBool false ]})), w').
Proof.
  destruct w as [n mk wr ent]. simpl. intros -> ->. by eexists.
Qed.

(** A parsed dict without [client_id] comes back as it was parsed: the
    lookup raises [KeyError] after the local variable has been rebound. *)
Lemma get_reporting_config_missing_client_id (w : world) (d : gmap string json) :
  config_path w = File true (Json (JObj d)) →
  d !! "client_id" = None →
  get_reporting_config w = (Ok (JObj d), w).
Proof.
  intros Hfile Hd. destruct w as [n mk wr ent]. simpl in Hfile. subst n.
  run_config. by rewrite Hd.
Qed.

(** C1 at a failing input: the file parses, the lookup of [client_id]
    raises [KeyError], and the handler returns the parsed dict, in which
    [consent] is true, not the default config. *)
Theorem get_reporting_config_keeps_loaded_on_KeyError :
  get_reporting_config_body (default_config, keyless_world)
  = (Raise (KeyError "client_id"), (JObj {[ "consent" := JBool true ]}, keyless_world))
  ∧ get_reporting_config keyless_world
    = (Ok (JObj {[ "consent" := JBool true ]}), keyless_world)
  ∧ JObj {[ "consent" := JBool true ]} ≠ default_config
  ∧ (consent_from_reporting_config_file keyless_world).1 = Ok (JBool true).
Proof.
  split_and!; try reflexivity.
  intros H.
  apply (f_equal (λ j, py_get j "consent")) in H. simpl in H.
  rewrite !lookup_singleton_eq in H. discriminate.
Qed.

(** ** Feature reports *)

Ltac run_report :=
  unfold feature_report_path, bind, ret, lift, in_snd, get_local, set_local,
    get_state, tags_append, tags_setitem, feature_report; simpl.

Lemma username_tag_count_app (a b : list string) :
  username_tag_count (a ++ b) = (username_tag_count a + username_tag_count b)%nat.
Proof. unfold username_tag_count. by rewrite filter_app, length_app. Qed.

Lemma username_tag_count_clean (ts : list string) :
  Forall no_username ts → username_tag_count ts = 0%nat.
Proof.
  unfold username_tag_count. induction 1 as [|t ts Ht _ IH]; [done|].
  apply contains_false in Ht. rewrite filter_cons_False; [done|congruence].
Qed.

Lemma username_tag_count_one (tag : string) :
  username_tag_count [tag] = if contains "username" tag then 1%nat else 0%nat.
Proof.
  unfold username_tag_count. destruct (contains "username" tag) eqn:Hc.
  - by rewrite filter_cons_True.
  - rewrite filter_cons_False; [done|congruence].
Qed.

Lemma username_tag_count_insert (ts : list string) (i : nat) (old new : string) :
  ts !! i = Some old →
  contains "username" old = true → contains "username" new = true →
  username_tag_count (<[i := new]> ts) = username_tag_count ts.
Proof.
  unfold username_tag_count. revert i.
  induction ts as [|t ts IH]; intros i Hl Hold Hnew; [done|].
  destruct i as [|i]; simpl in *.
  - injection Hl as ->. by rewrite !filter_cons_True.
  - destruct (contains "username" t) eqn:Ht.
    + rewrite !filter_cons_True by done. simpl. f_equal. by apply IH.
    + rewrite !filter_cons_False by congruence. by apply IH.
Qed.

Section FeatureReport.
Context (backend : string → res string) (path : path_arg).
Context (feature_name starts_with : string).

(** C7: without a token, [feature_report_path] hands the sink the feature
    name with the caller's parameters, to which ["Path"] has been added when
    the path starts with the prefix, and leaves the tag list as it was;
    with or without a token the parameters end up so.  From an empty tag
    list, path "hub://x", feature "load" and empty parameters, the sink
    receives [{"Path": "hub://x"}] and the tag list stays empty. *)
Theorem feature_report_path_no_token (parameters : gmap string json) (r : reporter) :
  feature_report_path backend path feature_name starts_with None (parameters, r)
  = (Ok tt,
     (with_path starts_with (path_str path) parameters,
      Reporter (tags r)
        (reported r ++ [(feature_name, with_path starts_with (path_str path) parameters)])))
  ∧ (∀ token,
       (feature_report_path backend path feature_name starts_with token
          (parameters, r)).2.1
       = with_path starts_with (path_str path) parameters)
  ∧ feature_report_path backend (PathStr "hub://x") "load" "hub://" None
      (∅, Reporter [] [])
    = (Ok tt, ({[ "Path" := JStr "hub://x" ]},
               Reporter [] [("load", {[ "Path" := JStr "hub://x" ]})])).
Proof.
  split_and!.
  - run_report. unfold with_path. by destruct (String.prefix _ _).
  - intros [tok|]; run_report; unfold with_path.
    + destruct (String.prefix _ _), (backend tok) as [name|e]; simpl; try done.
      all: destruct (find_current_username r) as [index [cur|]]; simpl; try done.
      all: destruct (username_tag_differs name cur), index as [i|]; simpl; try done.
      all: by destruct (decide _).
    + by destruct (String.prefix _ _).
  - reflexivity.
Qed.

Lemma feature_report_path_tags (token : option string)
    (parameters : gmap string json) (r : reporter) :
  tags (feature_report_path backend path feature_name starts_with token
          (parameters, r)).2.2
  = match token with
    | None => tags r
    | Some tok =>
        match backend tok with
        | Raise _ => tags r
        | Ok name =>
            match find_current_username r with
            | (_, None) => tags r ++ ["username:" +:+ name]
            | (None, Some _) => tags r
            | (Some i, Some current) =>
                if username_tag_differs name current
                then <[i := "username:" +:+ name]> (tags r)
                else tags r
            end
        end
    end.
Proof.
  destruct token as [tok|]; run_report; [|by destruct (String.prefix _ _)].
  destruct (String.prefix _ _), (backend tok) as [name|e]; simpl; try done.
  all: destruct (find_current_username r) as [[i|] [cur|]] eqn:Hfind; simpl; try done.
  all: destruct (username_tag_differs name cur); simpl; try done.
  all: apply find_from_some in Hfind as (j & -> & Hl & _); simpl in *.
  all: apply lookup_lt_Some in Hl; by destruct (decide _).
Qed.

Lemma username_tag_differs_spec (username current : string) :
  username_tag_differs username current = true ↔ current ≠ "username:" +:+ username.
Proof.
  unfold username_tag_differs. rewrite negb_true_iff.
  destruct (String.eqb_spec ("username:" +:+ username) current); split; congruence.
Qed.

(** C2, as stated, fails: for the tag "username:alice" and the resolved
    name "alice" the test of the code is false, so the tag is not assigned
    again, where the comparison with the bare name would be true.  The two
    comparisons are told apart by the outcome for a tag "username" and a
    user of that name: the code rewrites the tag. *)
Lemma username_check_is_prefixed :
  username_tag_differs "alice" "username:alice" = false
  ∧ spec_bare_username_differs "alice" "username:alice" = true
  ∧ spec_bare_username_differs "username" "username" = false
  ∧ tags (feature_report_path (backend_of "username") (PathStr "ds") "load" "hub://"
            (Some "tok") (∅, Reporter ["username"] [])).2.2
    = ["username:username"].
Proof. split_and!; reflexivity. Qed.

(** C2, amended: when a tag containing "username" exists and the token
    resolves to [username], the test compares the whole tag with
    ["username:" + username].  The tag is assigned again exactly when it
    differs from that string, at the index found, and the tag list changes
    exactly then. *)
Theorem username_tag_overwritten_iff_changed (tok username : string)
    (parameters : gmap string json) (r : reporter) (i : nat) (current : string) :
  backend tok = Ok username →
  find_current_username r = (Some i, Some current) →
  (username_tag_differs username current = true ↔ current ≠ "username:" +:+ username)
  ∧ tags (feature_report_path backend path feature_name starts_with (Some tok)
            (parameters, r)).2.2
    = (if username_tag_differs username current
       then <[i := "username:" +:+ username]> (tags r) else tags r)
  ∧ (tags (feature_report_path backend path feature_name starts_with (Some tok)
             (parameters, r)).2.2 = tags r
     ↔ current = "username:" +:+ username).
Proof.
  intros Hb Hfind.
  assert (tags (feature_report_path backend path feature_name starts_with (Some tok)
            (parameters, r)).2.2
    = (if username_tag_differs username current
       then <[i := "username:" +:+ username]> (tags r) else tags r)) as Htags.
  { by rewrite feature_report_path_tags, Hb, Hfind. }
  split; [apply username_tag_differs_spec|]. split; [done|].
  rewrite Htags.
  apply find_from_some in Hfind as (j & -> & Hl & _). simpl in *.
  destruct (username_tag_differs username current) eqn:Hd.
  - apply username_tag_differs_spec in Hd. split; [|done].
    intros Heq. apply (f_equal (λ l, l !! j)) in Heq.
    rewrite list_lookup_insert_eq in Heq by (by eapply lookup_lt_Some). congruence.
  - split; [|done]. intros _.
    destruct (decide (current = "username:" +:+ username)) as [|Hne]; [done|].
    apply username_tag_differs_spec in Hne. congruence.
Qed.

Lemma feature_report_path_preserves (token : option string)
    (parameters : gmap string json) (r : reporter) :
  at_most_one_username (tags r) →
  at_most_one_username
    (tags (feature_report_path backend path feature_name starts_with token
             (parameters, r)).2.2).
Proof.
  intros Hr. rewrite feature_report_path_tags.
  destruct token as [tok|]; [|done].
  destruct (backend tok) as [name|e]; [|done].
  unfold find_current_username.
  destruct (find_from_shape 0 (tags r)) as [Hn|(i & cur & Hs)].
  - rewrite Hn. apply find_from_none in Hn.
    unfold at_most_one_username.
    rewrite username_tag_count_app, username_tag_count_clean by done.
    by rewrite username_tag_count_one, contains_username_tag.
  - rewrite Hs. destruct (username_tag_differs name cur); [|done].
    apply find_from_some in Hs as (j & -> & Hl & Hu & _). simpl.
    unfold at_most_one_username.
    rewrite (username_tag_count_insert _ _ cur); [done | done | | apply contains_username_tag].
    by apply contains_spec, not_no_username.
Qed.

End FeatureReport.

Lemma username_tag_overwritten_iff_changed_witness :
  (username_tag_differs "eve" "username:ann" = true ↔ "username:ann" ≠ "username:" +:+ "eve")
  ∧ tags (feature_report_path (backend_of "eve") (PathStr "hub://x") "load" "hub://"
            (Some "tok") (∅, Reporter ["machine_id:first"; "username:ann"] [])).2.2
    = (if username_tag_differs "eve" "username:ann"
       then <[1%nat := "username:" +:+ "eve"]> ["machine_id:first"; "username:ann"]
       else ["machine_id:first"; "username:ann"])
  ∧ (tags (feature_report_path (backend_of "eve") (PathStr "hub://x") "load" "hub://"
             (Some "tok") (∅, Reporter ["machine_id:first"; "username:ann"] [])).2.2
     = ["machine_id:first"; "username:ann"]
     ↔ "username:ann" = "username:" +:+ "eve").
Proof.
  apply (username_tag_overwritten_iff_changed (backend_of "eve") (PathStr "hub://x")
           "load" "hub://" "tok" "eve" ∅
           (Reporter ["machine_id:first"; "username:ann"] []) 1 "username:ann").
  - reflexivity.
  - reflexivity.
Defined.

Lemma init_tags_tags (py_str : json → string) (cfg : json) (r0 r : reporter) :
  init_tags py_str cfg r0 = (Ok tt, r) →
  ∃ d, cfg = JObj d
    ∧ tags r = tags r0
        ++ match d !! "username" with
           | Some u => if is_none u then [] else ["username:" +:+ py_str u]
           | None => []
           end
        ++ match d !! "machine_id" with
           | Some m => if is_none m then [] else ["machine_id:" +:+ py_str m]
           | None => []
           end.
Proof.
  unfold init_tags, bind, lift, ret, tags_append.
  destruct cfg as [| | | | |d]; simpl; try done.
  intros H. exists d. split; [done|].
  destruct (d !! "username") as [u|], (d !! "machine_id") as [m|]; simpl in *.
  all: try destruct (is_none u); try destruct (is_none m); simpl in *.
  all: injection H as <-; simpl; by rewrite <- ?app_assoc, ?app_nil_r.
Qed.

Lemma module_init_tags (py_str : json → string) (w w' : world) (r0 r : reporter) :
  module_init py_str (r0, w) = (Ok tt, (r, w')) →
  ∃ cfg, (get_reporting_config w).1 = Ok cfg
       ∧ init_tags py_str cfg (Reporter [] []) = (Ok tt, r).
Proof.
  unfold module_init, bind, in_snd, in_fst, set_local.
  destruct (get_reporting_config_returns w) as (cfg & w1 & Hget). rewrite Hget.
  simpl. destruct (init_tags py_str cfg (Reporter [] [])) as [[[]|e] r1] eqn:Hinit;
    intros [= <- <-]. eauto.
Qed.

Lemma module_init_invariant (py_str : json → string) (w w' : world) (r : reporter) :
  machine_id_tag_clean py_str w →
  module_init py_str (Reporter [] [], w) = (Ok tt, (r, w')) →
  at_most_one_username (tags r).
Proof.
  intros Hclean Hinit.
  apply module_init_tags in Hinit as (cfg & Hget & Hinit).
  apply init_tags_tags in Hinit as (d & -> & ->). simpl.
  unfold at_most_one_username. rewrite username_tag_count_app.
  assert (username_tag_count
            match d !! "machine_id" with
            | Some m => if is_none m then [] else ["machine_id:" +:+ py_str m]
            | None => []
            end = 0%nat) as ->.
  { destruct (d !! "machine_id") as [m|] eqn:Hm; [|done].
    destruct (is_none m) eqn:Hnone; [done|].
    rewrite username_tag_count_one.
    assert (no_username ("machine_id:" +:+ py_str m)) as Hc.
    { apply (Hclean d m); [done | done | by intros ->]. }
    apply contains_false in Hc. by rewrite Hc. }
  destruct (d !! "username") as [u|]; [|compute; lia].
  destruct (is_none u); [compute; lia|].
  rewrite username_tag_count_one. destruct (contains _ _); simpl; lia.
Qed.

(** C9, as stated, fails: with a config file whose [client_id] contains
    the word "username", the tags set up at module initialisation are the
    username tag and a [machine_id] tag that contains "username" too. *)
Lemma init_two_username_tags :
  module_init str_of_string (Reporter [] [], crafted_world)
  = (Ok tt, (Reporter ["username:bob"; "machine_id:username-host"] [], crafted_world))
  ∧ reachable str_of_string crafted_world
      (Reporter ["username:bob"; "machine_id:username-host"] [])
  ∧ username_tag_count ["username:bob"; "machine_id:username-host"] = 2%nat
  ∧ ¬ at_most_one_username ["username:bob"; "machine_id:username-host"].
Proof.
  assert (username_tag_count ["username:bob"; "machine_id:username-host"] = 2%nat)
    as Hcount by (vm_compute; reflexivity).
  split_and!; [reflexivity | by eapply reach_init | done |].
  unfold at_most_one_username. rewrite Hcount. lia.
Qed.

(** C9, amended: when the [machine_id] tag of module initialisation does
    not contain "username", every reporter reached from module
    initialisation by [feature_report_path] calls has at most one tag that
    contains "username": a call appends a username tag only when there is
    none and otherwise replaces the one found, in place. *)
Theorem username_tag_invariant (py_str : json → string) (w : world) (r : reporter) :
  machine_id_tag_clean py_str w →
  reachable py_str w r →
  at_most_one_username (tags r).
Proof.
  intros Hclean Hreach. induction Hreach as [w' r Hinit|? ? ? ? ? ? r _ IH].
  - by eapply module_init_invariant.
  - by apply feature_report_path_preserves.
Qed.

Lemma username_tag_invariant_witness :
  at_most_one_username
    (tags (feature_report_path (backend_of "eve") (PathStr "hub://x") "load" "hub://"
             (Some "tok") (∅, Reporter ["username:ann"; "machine_id:first"] [])).2.2).
Proof.
  apply (username_tag_invariant str_of_string named_world).
  - intros d m Hget Hm _. vm_compute in Hget. injection Hget as <-.
    vm_compute in Hm. injection Hm as <-.
    apply contains_false. reflexivity.
  - apply reach_report. apply (reach_init _ _ named_world). reflexivity.
Defined.

(** ** Fresh installs *)

Lemma mentions_app (c : ascii) (a b : string) :
  mentions c (a +:+ b) = mentions c a || mentions c b.
Proof. induction a as [|c' a IH]; simpl; [done|]. by rewrite IH, orb_assoc. Qed.

Lemma mentions_substring (c : ascii) (n m : nat) (s : string) :
  mentions c (String.substring n m s) = true → mentions c s = true.
Proof.
  revert n m. induction s as [|c' s IH]; intros n m; [by destruct n, m|].
  destruct n as [|n]; simpl.
  - destruct m as [|m]; simpl; [done|]. rewrite !orb_true_iff.
    intros [?|?]; [by left | right; by eapply IH].
  - intros H. rewrite (IH _ _ H). apply orb_true_r.
Qed.

Lemma hex_digit_not_u (d : Z) : Ascii.eqb "u" (hex_digit d) = false.
Proof.
  unfold hex_digit. generalize (Z.to_nat d). intros k.
  do 16 (destruct k as [|k]; [reflexivity|]). reflexivity.
Qed.

Lemma hex_be_no_u (n : nat) (z : Z) : mentions "u" (hex_be n z) = false.
Proof.
  revert z. induction n as [|n IH]; intros z; [done|].
  cbn [hex_be]. rewrite mentions_app, IH. cbn [mentions orb].
  by rewrite hex_digit_not_u.
Qed.

Lemma uuid_str_no_u (z : Z) : mentions "u" (uuid_str z) = false.
Proof.
  assert (∀ n m, mentions "u" (String.substring n m (hex_be 32 z)) = false) as Hsub.
  { intros n m. destruct (mentions _ (String.substring _ _ _)) eqn:H; [|done].
    apply mentions_substring in H. by rewrite hex_be_no_u in H. }
  unfold uuid_str. by rewrite !mentions_app, !Hsub.
Qed.

Lemma username_needs_u (tag : string) :
  substring_of "username" tag → mentions "u" tag = true.
Proof.
  intros (a & b & ->). rewrite mentions_app. simpl. apply orb_true_r.
Qed.

Lemma machine_id_uuid_clean (z : Z) : no_username ("machine_id:" +:+ uuid_str z).
Proof.
  intros H. apply username_needs_u in H.
  rewrite mentions_app, uuid_str_no_u in H. discriminate.
Qed.

(** On a machine without a config file the client id is a fresh UUID, and
    the [machine_id] tag made from it is clean. *)
Lemma machine_id_tag_clean_fresh (py_str : json → string) (w : world) :
  (∀ s, py_str (JStr s) = s) →
  config_path w = Absent →
  machine_id_tag_clean py_str w.
Proof.
  intros Hstr Hw d m Hget Hm _. destruct w as [n mk wr ent]. simpl in Hw. subst n.
  revert Hget. run_config. destruct mk, wr; simpl.
  all: rewrite ?lookup_insert_eq; simpl; rewrite ?lookup_insert_ne by done; simpl.
  all: rewrite ?lookup_insert_eq, ?lookup_empty; simpl.
  all: intros [= <-]; simplify_map_eq.
  all: rewrite Hstr; apply machine_id_uuid_clean.
Qed.

(** * Further properties *)

(** ** Saving the config *)

Lemma save_on_dict (consent : bool) (client_id username : option string)
    (w : world) (d : gmap string json) :
  config_path w = File true (Json (JObj d)) →
  ∃ w', save_reporting_config consent client_id username w
        = (Ok (JObj (updated_config consent client_id username (next_uuid_str w) d)), w')
      ∧ config_path w'
        = (if can_write w
           then File true (Json (JObj (updated_config consent client_id username
                                         (next_uuid_str w) d)))
           else config_path w).
Proof.
  intros Hfile. destruct w as [n mk wr ent]. simpl in Hfile. subst n.
  unfold updated_config. run_config. save_cases d client_id username wr Hd.
  all: by eexists.
Qed.

Lemma save_on_nothing (consent : bool) (client_id username : option string) (w : world) :
  nothing_to_load w = true →
  ∃ w', save_reporting_config consent client_id username w
        = (Ok (JObj (updated_config consent client_id username (next_uuid_str w) ∅)), w')
      ∧ config_path w' = config_path (json_dump_file
          (JObj (updated_config consent client_id username (next_uuid_str w) ∅)) w).2.
Proof.
  destruct w as [n mk wr ent]. unfold nothing_to_load, updated_config. simpl.
  intros Hn. run_config.
  destruct n as [| |[] []]; try done; simpl in *; subst;
    destruct client_id, username, wr; simpl; rewrite ?lookup_insert_eq; simpl.
  all: by eexists.
Qed.

Lemma save_fails_raises (consent : bool) (client_id username : option string) (w : world) :
  save_fails w = true →
  save_reporting_config consent client_id username w
  = (Raise (match config_path w with
            | Absent => OSError "makedirs"
            | _ => AttributeError "get"
            end), w).
Proof.
  destruct w as [n mk wr ent]. unfold save_fails. simpl. intros Hf. run_config.
  destruct n as [| |[] [|[]]]; try done; simpl in *.
  all: try (destruct mk; [done|reflexivity]).
  all: by destruct client_id.
Qed.

Lemma save_cases_world (w : world) :
  (∃ d, config_path w = File true (Json (JObj d)))
  ∨ nothing_to_load w = true ∨ save_fails w = true.
Proof.
  unfold nothing_to_load, save_fails.
  destruct (config_path w) as [| |[] [|[]]]; eauto; destruct (can_mkdir w); eauto.
Qed.

Lemma updated_config_props (consent : bool) (client_id username : option string)
    (fresh : string) (d : gmap string json) :
  updated_config consent client_id username fresh d !! "consent" = Some (JBool consent)
  ∧ (∃ v, updated_config consent client_id username fresh d !! "client_id" = Some v
          ∧ v ≠ JNull)
  ∧ (∀ name, username = Some name →
       updated_config consent client_id username fresh d !! "username"
       = Some (JStr name)).
Proof.
  unfold updated_config.
  destruct (d !! "client_id") as [[]|] eqn:Hd, client_id, username; simpl.
  all: split_and!; [by simplify_map_eq | | by intros ? [= <-]; simplify_map_eq].
  all: eexists; split; [by simplify_map_eq | done].
Qed.

Lemma save_ok_dict (consent : bool) (client_id username : option string)
    (w w' : world) (cfg : json) :
  save_reporting_config consent client_id username w = (Ok cfg, w') →
  ∃ d, cfg = JObj d
     ∧ d !! "consent" = Some (JBool consent)
     ∧ (∃ v, d !! "client_id" = Some v ∧ v ≠ JNull)
     ∧ (∀ name, username = Some name → d !! "username" = Some (JStr name)).
Proof.
  intros Hsave. destruct (save_cases_world w) as [[d Hd]|[Hn|Hf]].
  - destruct (save_on_dict consent client_id username w d Hd) as (w1 & Hs & _).
    rewrite Hs in Hsave. injection Hsave as <- <-.
    eexists; split; [done|]. apply updated_config_props.
  - destruct (save_on_nothing consent client_id username w Hn) as (w1 & Hs & _).
    rewrite Hs in Hsave. injection Hsave as <- <-.
    eexists; split; [done|]. apply updated_config_props.
  - by rewrite (save_fails_raises _ _ _ _ Hf) in Hsave.
Qed.

(** X1: [save_reporting_config] raises in two situations only, and then
    leaves everything as it was: [OSError] when there is no file and its
    directory cannot be created, [AttributeError] when the file parses to
    a JSON value that is not an object.  Otherwise it returns a dict with
    the given [consent], a non-null [client_id] and, if one was given,
    the given [username]. *)
Theorem save_reporting_config_outcome (consent : bool) (client_id username : option string)
    (w : world) :
  match save_reporting_config consent client_id username w with
  | (Ok cfg, w') =>
      save_fails w = false
      ∧ ∃ d, cfg = JObj d
           ∧ d !! "consent" = Some (JBool consent)
           ∧ (∃ v, d !! "client_id" = Some v ∧ v ≠ JNull)
           ∧ (∀ name, username = Some name → d !! "username" = Some (JStr name))
  | (Raise e, w') =>
      save_fails w = true ∧ w' = w
      ∧ exn_class e = (match config_path w with
                       | Absent => "OSError"
                       | _ => "AttributeError"
                       end)
  end.
Proof.
  destruct (save_cases_world w) as [[d Hd]|[Hn|Hf]].
  - destruct (save_on_dict consent client_id username w d Hd) as (w' & -> & _).
    split; [unfold save_fails; by rewrite Hd|].
    eexists; split; [done|]. apply updated_config_props.
  - destruct (save_on_nothing consent client_id username w Hn) as (w' & -> & _).
    split.
    { revert Hn. unfold nothing_to_load, save_fails.
      destruct (config_path w) as [| |[] [|[]]]; try done. by intros ->. }
    eexists; split; [done|]. apply updated_config_props.
  - rewrite (save_fails_raises _ _ _ _ Hf). split_and!; [done | done |].
    by destruct (config_path w).
Qed.

(** X2: when there is no dict to load (no file and a directory that can
    be created, a directory at the path, an unreadable or a corrupt
    file), [save_reporting_config] returns a config made of [client_id]
    (the argument, else a fresh UUID), [username] if given and [consent],
    and nothing else; the file holds it afterwards when it could be
    opened for writing and is left as it was otherwise. *)
Theorem save_replaces_unloadable (consent : bool) (client_id username : option string)
    (w : world) :
  nothing_to_load w = true →
  ∃ cfg w',
    save_reporting_config consent client_id username w = (Ok (JObj cfg), w')
    ∧ cfg !! "client_id" = Some (JStr (default (next_uuid_str w) client_id))
    ∧ cfg !! "username" = JStr <$> username
    ∧ cfg !! "consent" = Some (JBool consent)
    ∧ (∀ k, k ≠ "client_id" → k ≠ "username" → k ≠ "consent" → cfg !! k = None)
    ∧ config_path w'
      = match config_path w with
        | Directory => Directory
        | Absent => if can_write w then File true (Json (JObj cfg)) else Absent
        | File r c => if can_write w then File r (Json (JObj cfg)) else File r c
        end.
Proof.
  intros Hn. destruct (save_on_nothing consent client_id username w Hn) as (w' & Hs & Hw).
  eexists _, w'. split; [exact Hs|].
  unfold updated_config. rewrite lookup_empty. simpl.
  split_and!.
  - destruct username; by simplify_map_eq.
  - destruct username; by simplify_map_eq.
  - by simplify_map_eq.
  - intros k ? ? ?. destruct username; by simplify_map_eq.
  - rewrite Hw. unfold json_dump_file, updated_config. rewrite lookup_empty.
    destruct w as [[] mk []]; reflexivity.
Qed.

Lemma save_replaces_unloadable_witness :
  ∃ cfg w',
    save_reporting_config true None (Some "ann") quiet_world = (Ok (JObj cfg), w')
    ∧ cfg !! "client_id" = Some (JStr (next_uuid_str quiet_world))
    ∧ cfg !! "username" = Some (JStr "ann")
    ∧ cfg !! "consent" = Some (JBool true)
    ∧ (∀ k, k ≠ "client_id" → k ≠ "username" → k ≠ "consent" → cfg !! k = None)
    ∧ config_path w' = File true (Json (JObj cfg)).
Proof. exact (save_replaces_unloadable true None (Some "ann") quiet_world eq_refl). Defined.

Lemma save_noop (consent : bool) (client_id : option string) (w : world)
    (d : gmap string json) (v : json) :
  config_path w = File true (Json (JObj d)) →
  d !! "client_id" = Some v → v ≠ JNull →
  d !! "consent" = Some (JBool consent) →
  save_reporting_config consent client_id None w = (Ok (JObj d), w).
Proof.
  intros Hfile Hv Hnn Hc. destruct w as [n mk wr ent]. simpl in Hfile. subst n.
  run_config. rewrite Hv. simpl.
  destruct client_id, v; try done; simpl; rewrite ?Hv; simpl.
  all: rewrite (insert_id d "consent") by done; by destruct wr.
Qed.

(** X3: once [save_reporting_config] has returned a config and the file
    holds it, a second call with the same [consent], no [username] and any
    [client_id] returns that same config and changes nothing. *)
Theorem save_twice_same (consent : bool) (client_id client_id' username : option string)
    (w w1 : world) (cfg : json) :
  save_reporting_config consent client_id username w = (Ok cfg, w1) →
  config_path w1 = File true (Json cfg) →
  save_reporting_config consent client_id' None w1 = (Ok cfg, w1).
Proof.
  intros Hsave Hfile.
  destruct (save_ok_dict _ _ _ _ _ _ Hsave) as (d & -> & Hc & (v & Hv & Hnn) & _).
  by eapply save_noop.
Qed.

Lemma save_twice_same_witness :
  save_reporting_config true (Some "other") None
    (save_reporting_config true None None quiet_world).2
  = (Ok (JObj (updated_config true None None (next_uuid_str quiet_world) ∅)),
     (save_reporting_config true None None quiet_world).2).
Proof.
  apply (save_twice_same true None (Some "other") None quiet_world).
  - reflexivity.
  - reflexivity.
Defined.

(** ** Loading the config *)

Lemma get_on_dict (w : world) (d : gmap string json) (c : json) :
  config_path w = File true (Json (JObj d)) →
  d !! "client_id" = Some c →
  get_reporting_config w = (Ok (JObj (with_machine_id d c)), w).
Proof.
  intros Hfile Hc. destruct w as [n mk wr ent]. simpl in Hfile. subst n.
  unfold with_machine_id. run_config. rewrite Hc. simpl.
  rewrite !(lookup_insert_ne d "machine_id") by done. rewrite Hc.
  destruct (d !! "username") as [name|] eqn:Hname; simpl; [|done].
  destruct (is_none name); simpl; [done|].
  by destruct (py_eq c name).
Qed.

Lemma with_machine_id_consent (d : gmap string json) (c : json) :
  with_machine_id d c !! "consent" = d !! "consent".
Proof.
  unfold with_machine_id.
  destruct (d !! "username") as [name|]; [destruct (_ && _)|]; by simplify_map_eq.
Qed.

Lemma get_on_absent (w : world) :
  config_path w = Absent → can_mkdir w = true →
  ∃ w', get_reporting_config w
        = (Ok (JObj (<["machine_id" := JStr (next_uuid_str w)]> (first_config w))), w')
      ∧ config_path w'
        = (if can_write w then File true (Json (JObj (first_config w))) else Absent)
      ∧ can_write w' = can_write w ∧ can_mkdir w' = can_mkdir w.
Proof.
  destruct w as [n mk wr ent]. simpl. intros -> ->. unfold first_config.
  run_config. rewrite lookup_empty. simpl. rewrite lookup_insert_eq. simpl.
  destruct wr; simpl.
  all: rewrite (lookup_insert_ne _ "consent" "client_id"), lookup_insert_eq by done; simpl.
  all: rewrite !lookup_insert_ne, lookup_empty by done; simpl.
  all: by eexists.
Qed.

Lemma get_on_non_object (w : world) (j : json) :
  config_path w = File true (Json j) → is_object j = false →
  get_reporting_config w = (Ok j, w).
Proof.
  destruct w as [n mk wr ent]. simpl. intros -> Hj. by destruct j.
Qed.

(** X4: when something exists at the config path, [get_reporting_config]
    changes neither the file nor the random source. *)
Theorem get_reporting_config_read_only (w : world) :
  config_path w ≠ Absent → (get_reporting_config w).2 = w.
Proof.
  intros Hw. destruct (config_path w) as [| |r [|j]] eqn:Hn; [done|..].
  - rewrite get_reporting_config_unloadable; eauto.
  - rewrite get_reporting_config_unloadable; eauto.
  - destruct r; [|rewrite get_reporting_config_unloadable; eauto].
    destruct (is_object j) eqn:Hj; [|by rewrite (get_on_non_object w j)].
    destruct j as [| | | | |d]; try done.
    destruct (d !! "client_id") as [c|] eqn:Hc.
    + by rewrite (get_on_dict w d c).
    + by rewrite (get_reporting_config_missing_client_id w d).
Qed.

Lemma get_reporting_config_read_only_witness :
  (get_reporting_config named_world).2 = named_world.
Proof. apply (get_reporting_config_read_only named_world). discriminate. Defined.

(** X5: when there is no config file and its directory can be created,
    [get_reporting_config] returns a config whose [client_id] and
    [machine_id] are the same fresh UUID, with [consent] true and no
    [username]; the file then holds that [client_id] and [consent] but no
    [machine_id], or is still absent when it could not be written. *)
Theorem get_reporting_config_first_access (w : world) :
  config_path w = Absent → can_mkdir w = true →
  ∃ cfg w',
    get_reporting_config w = (Ok (JObj cfg), w')
    ∧ cfg !! "client_id" = Some (JStr (next_uuid_str w))
    ∧ cfg !! "machine_id" = Some (JStr (next_uuid_str w))
    ∧ cfg !! "consent" = Some (JBool true)
    ∧ cfg !! "username" = None
    ∧ match config_path w' with
      | File true (Json (JObj stored)) =>
          can_write w = true
          ∧ stored !! "client_id" = Some (JStr (next_uuid_str w))
          ∧ stored !! "consent" = Some (JBool true)
          ∧ stored !! "machine_id" = None
      | Absent => can_write w = false
      | _ => False
      end.
Proof.
  intros Hw Hmk. destruct (get_on_absent w Hw Hmk) as (w' & Hget & Hpath & _).
  eexists _, w'. split; [exact Hget|]. unfold first_config.
  split_and!; try by simplify_map_eq.
  rewrite Hpath. unfold first_config. destruct (can_write w); [|done].
  split_and!; by simplify_map_eq.
Qed.

Lemma get_reporting_config_first_access_witness :
  ∃ cfg w',
    get_reporting_config quiet_world = (Ok (JObj cfg), w')
    ∧ cfg !! "client_id" = Some (JStr (next_uuid_str quiet_world))
    ∧ cfg !! "machine_id" = Some (JStr (next_uuid_str quiet_world))
    ∧ cfg !! "consent" = Some (JBool true)
    ∧ cfg !! "username" = None
    ∧ match config_path w' with
      | File true (Json (JObj stored)) =>
          can_write quiet_world = true
          ∧ stored !! "client_id" = Some (JStr (next_uuid_str quiet_world))
          ∧ stored !! "consent" = Some (JBool true)
          ∧ stored !! "machine_id" = None
      | Absent => can_write quiet_world = false
      | _ => False
      end.
Proof.
  apply (get_reporting_config_first_access quiet_world); reflexivity.
Defined.

(** X6: the config that [get_reporting_config] returns on first access,
    when the file could be written, is the config it returns again
    afterwards, without any further change. *)
Theorem get_reporting_config_stable (w w' : world) (cfg : json) :
  config_path w = Absent → can_mkdir w = true → can_write w = true →
  get_reporting_config w = (Ok cfg, w') →
  get_reporting_config w' = (Ok cfg, w').
Proof.
  intros Hw Hmk Hwr Hget.
  destruct (get_on_absent w Hw Hmk) as (w1 & Hget1 & Hpath & _).
  rewrite Hget in Hget1. injection Hget1 as -> <-. rewrite Hwr in Hpath.
  rewrite (get_on_dict w' (first_config w) (JStr (next_uuid_str w)) Hpath).
  - unfold with_machine_id, first_config. by simplify_map_eq.
  - unfold first_config. by simplify_map_eq.
Qed.

Lemma get_reporting_config_stable_witness :
  get_reporting_config (get_reporting_config quiet_world).2
  = (Ok (JObj (<["machine_id" := JStr (next_uuid_str quiet_world)]>
                 (first_config quiet_world))),
     (get_reporting_config quiet_world).2).
Proof.
  apply (get_reporting_config_stable quiet_world); reflexivity.
Defined.

(** X7: for a config file that is a dict with a [client_id],
    [get_reporting_config] returns [machine_id] equal to the stored
    [client_id]; the returned [client_id] is the stored one unless a
    non-null [username] differs from it, in which case it is that
    [username]; every other key is as stored. *)
Theorem machine_id_is_stored_client_id (w : world) (d : gmap string json) (c : json) :
  config_path w = File true (Json (JObj d)) →
  d !! "client_id" = Some c →
  ∃ cfg, get_reporting_config w = (Ok (JObj cfg), w)
    ∧ cfg !! "machine_id" = Some c
    ∧ cfg !! "client_id"
      = Some (match d !! "username" with
              | Some name => if is_none name || py_eq c name then c else name
              | None => c
              end)
    ∧ ∀ k, k ≠ "client_id" → k ≠ "machine_id" → cfg !! k = d !! k.
Proof.
  intros Hfile Hc. eexists. split; [by apply get_on_dict|].
  unfold with_machine_id.
  destruct (d !! "username") as [name|]; [destruct (is_none name), (py_eq c name)|];
    simpl; split_and!; intros; by simplify_map_eq.
Qed.

Lemma machine_id_is_stored_client_id_witness :
  ∃ cfg, get_reporting_config first_id_world = (Ok (JObj cfg), first_id_world)
    ∧ cfg !! "machine_id" = Some (JStr "first")
    ∧ cfg !! "client_id" = Some (JStr "first")
    ∧ ∀ k, k ≠ "client_id" → k ≠ "machine_id" →
        cfg !! k = ({[ "client_id" := JStr "first" ]} : gmap string json) !! k.
Proof.
  exact (machine_id_is_stored_client_id first_id_world _ (JStr "first") eq_refl eq_refl).
Defined.

(** ** Consent *)

Lemma consent_on_dict (w : world) (d : gmap string json) :
  config_path w = File true (Json (JObj d)) →
  consent_from_reporting_config_file w
  = (Ok (default (JBool false) (d !! "consent")), w).
Proof.
  intros Hfile. unfold consent_from_reporting_config_file, bind.
  destruct (d !! "client_id") as [c|] eqn:Hc.
  - rewrite (get_on_dict w d c) by done. unfold ret.
    by rewrite with_machine_id_consent.
  - by rewrite (get_reporting_config_missing_client_id w d).
Qed.

(** X8: what [consent_from_reporting_config_file] answers: with no file,
    true exactly when the directory can be created (the first access opts
    in); false for a directory, an unreadable or a corrupt file; for a
    dict, its [consent] entry, false when there is none; and for any other
    JSON value it raises [AttributeError]. *)
Theorem consent_from_reporting_config_file_cases (w : world) :
  (consent_from_reporting_config_file w).1
  = match config_path w with
    | Absent => Ok (JBool (can_mkdir w))
    | Directory | File false _ | File true Garbage => Ok (JBool false)
    | File true (Json (JObj d)) => Ok (default (JBool false) (d !! "consent"))
    | File true (Json _) => Raise (AttributeError "get")
    end.
Proof.
  destruct (config_path w) as [| |r [|j]] eqn:Hn.
  - unfold consent_from_reporting_config_file, bind.
    destruct (can_mkdir w) eqn:Hmk.
    + destruct (get_on_absent w Hn Hmk) as (w' & -> & _). unfold ret, first_config. simpl.
      by simplify_map_eq.
    + destruct (get_reporting_config_makedirs_failure w Hn Hmk) as (w' & ->).
      unfold ret. simpl. by simplify_map_eq.
  - unfold consent_from_reporting_config_file, bind.
    rewrite get_reporting_config_unloadable by eauto. reflexivity.
  - unfold consent_from_reporting_config_file, bind.
    rewrite get_reporting_config_unloadable by eauto. by destruct r.
  - destruct r.
    + destruct (is_object j) eqn:Hj.
      * destruct j; try done. by rewrite (consent_on_dict w d).
      * unfold consent_from_reporting_config_file, bind.
        rewrite (get_on_non_object w j) by done. by destruct j.
    + unfold consent_from_reporting_config_file, bind.
      rewrite get_reporting_config_unloadable by eauto. reflexivity.
Qed.

(** X9: after [save_reporting_config] has returned and the file holds
    what it returned, [consent_from_reporting_config_file] gives the
    [consent] that was saved and changes nothing. *)
Theorem consent_round_trip (consent : bool) (client_id username : option string)
    (w w1 : world) (cfg : json) :
  save_reporting_config consent client_id username w = (Ok cfg, w1) →
  config_path w1 = File true (Json cfg) →
  consent_from_reporting_config_file w1 = (Ok (JBool consent), w1).
Proof.
  intros Hsave Hfile.
  destruct (save_ok_dict _ _ _ _ _ _ Hsave) as (d & -> & Hc & _).
  rewrite (consent_on_dict w1 d Hfile). by rewrite Hc.
Qed.

Lemma consent_round_trip_witness :
  consent_from_reporting_config_file (save_reporting_config false None None named_world).2
  = (Ok (JBool false), (save_reporting_config false None None named_world).2).
Proof.
  apply (consent_round_trip false None None named_world _
           (JObj (updated_config false None None (next_uuid_str named_world)
                    {[ "client_id" := JStr "first"; "username" := JStr "ann";
                       "consent" := JBool true ]}))).
  - reflexivity.
  - reflexivity.
Defined.

(** ** Module initialisation *)

(** X10: with a config file that parses to a JSON value other than an
    object, importing the module raises [AttributeError]. *)
Theorem module_init_non_object (py_str : json → string) (w : world) (j : json)
    (r0 : reporter) :
  config_path w = File true (Json j) → is_object j = false →
  (module_init py_str (r0, w)).1 = Raise (AttributeError "get")
  ∧ (module_init py_str (r0, w)).2.2 = w.
Proof.
  intros Hfile Hj. unfold module_init, bind, in_snd, in_fst, set_local.
  rewrite (get_on_non_object w j) by done. by destruct j.
Qed.

Lemma module_init_non_object_witness :
  (module_init str_of_string (Reporter [] [], array_world)).1
  = Raise (AttributeError "get")
  ∧ (module_init str_of_string (Reporter [] [], array_world)).2.2 = array_world.
Proof.
  exact (module_init_non_object str_of_string array_world (JArr []) _ eq_refl eq_refl).
Defined.

(** X11: with a config file that is a dict whose [client_id] and
    [username] are strings, the tags after import are the username tag
    followed by the [machine_id] tag made of the stored [client_id]. *)
Theorem module_init_tags_of_strings (py_str : json → string) (w : world)
    (d : gmap string json) (c u : string) (r0 : reporter) :
  (∀ s, py_str (JStr s) = s) →
  config_path w = File true (Json (JObj d)) →
  d !! "client_id" = Some (JStr c) →
  d !! "username" = Some (JStr u) →
  module_init py_str (r0, w)
  = (Ok tt, (Reporter ["username:" +:+ u; "machine_id:" +:+ c] [], w)).
Proof.
  intros Hstr Hfile Hc Hu. unfold module_init, bind, in_snd, in_fst, set_local.
  rewrite (get_on_dict w d (JStr c)) by done.
  unfold with_machine_id. rewrite Hu. simpl.
  unfold init_tags, bind, lift, ret, tags_append.
  destruct (negb (c =? u)%string); simpl; simplify_map_eq; simpl; by rewrite !Hstr.
Qed.

Lemma module_init_tags_of_strings_witness :
  module_init str_of_string (Reporter [] [], named_world)
  = (Ok tt, (Reporter ["username:" +:+ "ann"; "machine_id:" +:+ "first"] [], named_world)).
Proof.
  apply (module_init_tags_of_strings str_of_string named_world
           {[ "client_id" := JStr "first"; "username" := JStr "ann";
              "consent" := JBool true ]} "first" "ann").
  - reflexivity.
  - reflexivity.
  - reflexivity.
  - reflexivity.
Defined.

(** ** Feature reports, continued *)

Section FeatureReportMore.
Context (backend : string → res string) (path : path_arg).
Context (feature_name starts_with : string).



(** X14: a tag that does not contain "username" is where it was after
    any call of [feature_report_path]. *)
Theorem feature_report_path_keeps_other_tags (token : option string)
    (parameters : gmap string json) (r : reporter) (j : nat) (t : string) :
  tags r !! j = Some t → no_username t →
  tags (feature_report_path backend path feature_name starts_with token
          (parameters, r)).2.2 !! j = Some t.
Proof.
  intros Hj Ht. rewrite feature_report_path_tags.
  destruct token as [tok|]; [|done].
  destruct (backend tok) as [name|e]; [|done].
  unfold find_current_username.
  destruct (find_from_shape 0 (tags r)) as [Hn|(i & cur & Hs)].
  - rewrite Hn. by apply lookup_app_l_Some.
  - rewrite Hs. destruct (username_tag_differs name cur); [|done].
    apply find_from_some in Hs as (k & -> & Hl & Hu & _). simpl.
    rewrite list_lookup_insert_ne; [done|]. intros Heq. subst.
    rewrite Hj in Hl. injection Hl as <-. by apply Hu.
Qed.

End FeatureReportMore.


Lemma feature_report_path_keeps_other_tags_witness :
  tags (feature_report_path (backend_of "eve") (PathStr "hub://x") "load" "hub://"
          (Some "tok") (∅, Reporter ["machine_id:first"; "username:ann"] [])).2.2
    !! 0%nat = Some "machine_id:first".
Proof.
  apply (feature_report_path_keeps_other_tags (backend_of "eve") (PathStr "hub://x")
           "load" "hub://" (Some "tok") ∅
           (Reporter ["machine_id:first"; "username:ann"] []) 0 "machine_id:first").
  - reflexivity.
  - apply contains_false. reflexivity.
Defined.

(** ** Identifiers, continued *)

Lemma uuid4_int_high_bits (raw i : Z) :
  80 ≤ i → Z.testbit (uuid4_int raw) i = Z.testbit raw i.
Proof.
  intros Hi. unfold uuid4_int.
  rewrite Z.lor_spec, Z.ldiff_spec, Z.lor_spec, Z.ldiff_spec.
  rewrite (bits_above (Z.shiftl 49152 48) 80 i), (bits_above (Z.shiftl 32768 48) 80 i),
    (bits_above (Z.shiftl 61440 64) 80 i), (bits_above (Z.shiftl 4 76) 80 i) by done.
  simpl. by rewrite !andb_true_r, !orb_false_r.
Qed.

Lemma uuid4_int_version_bits (raw i : Z) :
  0 ≤ i →
  Z.testbit (uuid4_int raw) (76 + i) = Z.testbit 4 i || (Z.testbit raw (76 + i) && (4 <=? i)).
Proof.
  intros Hi. unfold uuid4_int.
  rewrite Z.lor_spec, Z.ldiff_spec, Z.lor_spec, Z.ldiff_spec.
  rewrite (bits_above (Z.shiftl 49152 48) 76), (bits_above (Z.shiftl 32768 48) 76)
    by (done || lia).
  rewrite !Z.shiftl_spec by lia.
  replace (76 + i - 64) with (12 + i) by lia. replace (76 + i - 76) with i by lia.
  simpl. rewrite andb_true_r, orb_false_r, orb_comm. f_equal.
  destruct (Z.leb_spec 4 i) as [Hge|Hlt].
  - rewrite (bits_above 61440 16) by (done || lia). by rewrite !andb_true_r.
  - assert (i = 0 ∨ i = 1 ∨ i = 2 ∨ i = 3) as [-> | [-> | [-> | ->]]] by lia;
      f_equal; reflexivity.
Qed.

(** X15: for an unsigned type of at most 6 bytes, [generate_id] returns
    the most significant bits of the 16 random bytes themselves: the
    version and variant bits of the UUID lie below them. *)
Theorem generate_id_narrow_is_entropy (dt : dtype) (wd : world) :
  0 ≤ itemsize dt ≤ 6 →
  (∀ x, 0 ≤ x < 2 ^ (8 * itemsize dt) → cast dt x = Ok x) →
  generate_id dt wd
  = (Ok (Z.shiftr (entropy wd 0 mod 2 ^ 128) (128 - 8 * itemsize dt)), (uuid4 wd).2).
Proof.
  intros Hw Hcast.
  destruct (generate_id_narrow dt wd) as (u & wd' & Hu & _ & Hg & _); [lia | done |].
  rewrite Hg. injection Hu as <- <-. simpl. do 2 f_equal.
  apply Z.bits_inj'. intros i Hi.
  rewrite !Z.shiftr_spec by done. apply uuid4_int_high_bits. lia.
Qed.

Lemma generate_id_narrow_is_entropy_witness :
  generate_id (np_uint 4) quiet_world
  = (Ok (Z.shiftr (entropy quiet_world 0 mod 2 ^ 128) (128 - 8 * itemsize (np_uint 4))),
     (uuid4 quiet_world).2).
Proof.
  apply (generate_id_narrow_is_entropy (np_uint 4) quiet_world).
  - simpl. lia.
  - intros x Hx. simpl. f_equal. apply Z.mod_small. exact Hx.
Defined.

(** X16: for an unsigned type of 8 bytes, bits 12 to 15 of every id
    that [generate_id] returns are the UUID version, 4. *)
Theorem generate_id_8_bytes_version (dt : dtype) (wd : world) :
  itemsize dt = 8 →
  (∀ x, 0 ≤ x < 2 ^ 64 → cast dt x = Ok x) →
  ∃ v wd', generate_id dt wd = (Ok v, wd') ∧ Z.land (Z.shiftr v 12) 15 = 4.
Proof.
  intros Hw Hcast.
  destruct (generate_id_narrow dt wd) as (u & wd' & Hu & _ & Hg & _);
    [lia | by rewrite Hw |].
  eexists _, _. split; [exact Hg|]. rewrite Hw. injection Hu as <- _.
  apply Z.bits_inj'. intros i Hi.
  rewrite Z.land_spec, !Z.shiftr_spec by lia.
  replace (i + 12 + (128 - 8 * 8)) with (76 + i) by lia.
  rewrite uuid4_int_version_bits by done.
  destruct (Z.leb_spec 4 i) as [Hge|Hlt].
  - rewrite (bits_above 15 4), (bits_above 4 4) by (done || lia). apply andb_false_r.
  - rewrite andb_false_r, orb_false_r.
    assert (i = 0 ∨ i = 1 ∨ i = 2 ∨ i = 3) as [-> | [-> | [-> | ->]]] by lia; reflexivity.
Qed.

Lemma generate_id_8_bytes_version_witness :
  ∃ v wd', generate_id (np_uint 8) quiet_world = (Ok v, wd')
           ∧ Z.land (Z.shiftr v 12) 15 = 4.
Proof.
  apply (generate_id_8_bytes_version (np_uint 8) quiet_world).
  - reflexivity.
  - intros x Hx. simpl. f_equal. apply Z.mod_small. exact Hx.
Defined.
